(** * func_adl_servicex: the query translation and dispatch engine

    A shallow embedding of [src/func_adl_servicex/ServiceX.py]: the class
    [ServiceXDatasetSourceBase] with its four class-level tables and its
    three methods [check_data_format_request], [generate_qastle] and
    [execute_result_async].

    Python [ast] nodes are objects with identity: the rewrite in
    [generate_qastle] builds new nodes that point at the children of the
    old ones.  The embedding therefore keeps an object store (a list of
    nodes addressed by index) and threads it, together with the log of
    requests sent to the backend, through a state-and-exception monad. *)

From stdpp Require Import gmap strings list.

Open Scope string_scope.
Open Scope list_scope.

(** ** Python objects: [ast] nodes in a store *)

(** A reference to an object of the store. *)
Definition loc := nat.

(** The [ast] node classes a func_adl query is made of.  Children are
    references, as in Python.  [ctx=ast.Load()] of [ast.Name] carries no
    information and is left out. *)
Inductive node :=
| Name (id : string)
| Str (s : string)
| Num (n : Z)
| List_ (elts : list loc)
| Attribute (value : loc) (attr : string)
| Lambda (params : list string) (body : loc)
| Call (func : loc) (args : list loc).

(** ** Exceptions and outcomes *)

Inductive exn :=
| FuncADLServerException (msg : string)
| AssertionError (msg : string)
| AttributeError (attr : string)
| KeyError (key : string)
| IndexError
| RemoteError (msg : string).

Inductive outcome (A : Type) :=
| Return (a : A)
| Raise (e : exn).
Arguments Return {A} a.
Arguments Raise {A} e.

(** ** The world a request runs in *)

(** One call of a backend method: [getattr(self._ds, op)(q_str, title=title)]. *)
Record request := Request {
  op : string;
  q_str : string;
  title : option string
}.

Record world := World {
  objs : list node;        (* the object store *)
  sent : list request      (* backend methods invoked so far, oldest first *)
}.

(** State and exceptions.  A raised exception keeps the world reached. *)
Definition M (A : Type) : Type := world -> outcome A * world.

Definition ret {A} (a : A) : M A := fun w => (Return a, w).
Definition raise {A} (e : exn) : M A := fun w => (Raise e, w).
Definition bind {A B} (c : M A) (k : A -> M B) : M B :=
  fun w => match c w with
           | (Return a, w') => k a w'
           | (Raise e, w') => (Raise e, w')
           end.

Notation "'let*' x ':=' c 'in' k" := (bind c (fun x => k))
  (at level 10, x name, c at level 100, k at level 200).

(** [ast.X(...)]: a new object, at the next free address. *)
Definition alloc (n : node) : M loc :=
  fun w => (Return (length (objs w)), World (objs w ++ [n]) (sent w)).

(** Attribute reads.  A node class without the attribute raises
    [AttributeError], as Python does. *)
Definition get_func (a : loc) : M loc :=
  fun w => match objs w !! a with
           | Some (Call f _) => (Return f, w)
           | _ => (Raise (AttributeError "func"), w)
           end.

Definition get_args (a : loc) : M (list loc) :=
  fun w => match objs w !! a with
           | Some (Call _ args) => (Return args, w)
           | _ => (Raise (AttributeError "args"), w)
           end.

Definition get_id (n : loc) : M string :=
  fun w => match objs w !! n with
           | Some (Name id) => (Return id, w)
           | _ => (Raise (AttributeError "id"), w)
           end.

(** [l[i]] on a Python list. *)
Definition index {A} (l : list A) (i : nat) : M A :=
  match l !! i with
  | Some x => ret x
  | None => raise IndexError
  end.

(** ** The backend handle [self._ds] *)

(** The argument of [first_supported_datatype]: the source passes a
    single format name (['root']) or a list of names in order of
    preference ([['parquet', 'root']]). *)
Inductive datatypes :=
| One (d : string)
| Many (ds : list string).

Section Dispatcher.

(** What a backend method returns: opaque to this component. *)
Variable Data : Type.

(** [qastle.python_ast_to_text_ast], the serializer of the external
    library: a pure function of the tree below a node. *)
Variable python_ast_to_text_ast : list node -> loc -> string.

(** [servicex.ServiceXDataset], as far as this component uses it: the
    format query, [str(ds)], and the asynchronous methods reached through
    [getattr(ds, name)]. *)
Record ServiceXDataset := {
  first_supported_datatype : datatypes -> option string;
  ds_str : string;
  method : string -> string -> option string -> outcome Data
}.

Record ServiceXDatasetSourceBase := {
  _ds : ServiceXDataset;
  _return_qastle : bool
}.

(** *** Class-level tables *)

(** How we map from func_adl to a servicex query. *)
Definition _ds_map : gmap string string :=
  list_to_map [
    ("ResultTTree", "get_data_rootfiles_async");
    ("ResultParquet", "get_data_parquet_async");
    ("ResultPandasDF", "get_data_pandas_df_async");
    ("ResultAwkwardArray", "get_data_awkward_async")
  ].

(** If it comes down to format, what are we going to grab? *)
Definition _format_map : gmap string string :=
  list_to_map [
    ("root", "get_data_rootfiles_async");
    ("parquet", "get_data_parquet_async")
  ].

(** These are methods that are translated locally. *)
Definition _execute_locally : list string :=
  ["ResultPandasDF"; "ResultAwkwardArray"].

(** If we have a choice of formats, what can we do, in prioritized order? *)
Definition _format_list : list string := ["parquet"; "root"].

(** *** [check_data_format_request] *)

Definition is_none {A} (o : option A) : bool :=
  match o with None => true | Some _ => false end.

Definition check_data_format_request
    (self : ServiceXDatasetSourceBase) (f_name : string) : M unit :=
  if (bool_decide (f_name = "ResultTTree")
        && is_none (first_supported_datatype (_ds self) (One "root")))
     || (bool_decide (f_name = "ResultParquet")
        && is_none (first_supported_datatype (_ds self) (One "parquet")))
  then raise (FuncADLServerException
                (f_name +:+ " is not supported by " +:+ ds_str (_ds self)))
  else ret tt.

(** *** [generate_qastle] *)

(** Lines 106-127: the value of the local variable [source] when line 129
    is reached. *)
Definition generate_qastle_source
    (self : ServiceXDatasetSourceBase) (a : loc) : M loc :=
  let* a_func := get_func a in
  let* top_function := get_id a_func in
  if bool_decide (top_function ∈ _execute_locally) then
    match first_supported_datatype (_ds self) (Many ["parquet"; "root"]) with
    | None => raise (AssertionError "Unsupported ServiceX returned format")
    | Some default_format =>
      match _format_map !! default_format with
      | None => raise (KeyError default_format)
      | Some method_to_call =>
        let* args := get_args a in
        if bool_decide (length args ≠ 2) then
          raise (FuncADLServerException
                   ("Do not understand how to call " +:+ top_function
                    +:+ " - wrong number of arguments"))
        else
          let* stream := index args 0 in
          let* col_names := index args 1 in
          if bool_decide (method_to_call = "get_data_rootfiles_async") then
            let* f := alloc (Name "ResultTTree") in
            let* s1 := alloc (Str "treeme") in
            let* s2 := alloc (Str "junk.root") in
            alloc (Call f [stream; col_names; s1; s2])
          else if bool_decide (method_to_call = "get_data_parquet_async") then
            let* f := alloc (Name "ResultParquet") in
            let* s1 := alloc (Str "junk.parquet") in
            alloc (Call f [stream; col_names; s1])
          else
            raise (AssertionError
                     ("Do not know how to call " +:+ method_to_call))
      end
    end
  else ret a.

Definition generate_qastle
    (self : ServiceXDatasetSourceBase) (a : loc) : M string :=
  let* source := generate_qastle_source self a in
  fun w => (Return (python_ast_to_text_ast (objs w) source), w).

(** *** [execute_result_async] *)

(** What the entry point hands back: the qastle text, or the backend's data. *)
Inductive result :=
| Qastle (q : string)
| Materialized (d : Data).

(** [await attr(q_str, title=title)] with [attr = getattr(self._ds, name)]:
    the call is recorded, its result or exception is passed on as it is. *)
Definition invoke (ds : ServiceXDataset) (name q : string)
    (t : option string) : M result :=
  fun w =>
    let w' := World (objs w) (sent w ++ [Request name q t]) in
    match method ds name q t with
    | Return d => (Return (Materialized d), w')
    | Raise e => (Raise e, w')
    end.

(** The debug message of line 150 goes to the logger only and is left
    out. *)
Definition execute_result_async
    (self : ServiceXDatasetSourceBase) (a : loc) (t : option string)
    : M result :=
  let* a_func := get_func a in
  let* a_func_id := get_id a_func in
  let* _ := check_data_format_request self a_func_id in
  let* q := generate_qastle self a in
  if _return_qastle self then ret (Qastle q)
  else
    match _ds_map !! a_func_id with
    | None =>
      raise (FuncADLServerException
               ("Internal error - asked for " +:+ a_func_id
                +:+ " - but this dataset does not support it."))
    | Some name => invoke (_ds self) name q t
    end.

End Dispatcher.

Arguments first_supported_datatype {Data} _ _.
Arguments ds_str {Data} _.
Arguments method {Data} _ _ _ _.
Arguments _ds {Data} _.
Arguments _return_qastle {Data} _.
Arguments Qastle {Data} q.
Arguments Materialized {Data} d.
Arguments check_data_format_request {Data} self f_name w.
Arguments generate_qastle_source {Data} self a w.
Arguments generate_qastle {Data} python_ast_to_text_ast self a w.
Arguments invoke {Data} ds name q t w.
Arguments execute_result_async {Data} python_ast_to_text_ast self a t w.

(** ** Result kinds and backend capabilities *)

(** The format each remote-native kind needs, as lines 84-86 pair them:
    ['ResultTTree'] with ['root'], ['ResultParquet'] with ['parquet']. *)
Definition required_format (k : string) : option string :=
  if bool_decide (k = "ResultTTree") then Some "root"
  else if bool_decide (k = "ResultParquet") then Some "parquet"
  else None.

Definition remote_native (k : string) : Prop := is_Some (required_format k).

Definition local_materialized (k : string) : Prop := k ∈ _execute_locally.

Definition known_kind (k : string) : Prop :=
  remote_native k ∨ local_materialized k.

(** The backend reports a format as supported when the single-format
    query answers something, the test of lines 84 and 86. *)
Definition supports {Data} (ds : ServiceXDataset Data) (f : string) : bool :=
  negb (is_none (first_supported_datatype ds (One f))).

(** Modelled from the spec: [ServiceXDataset.first_supported_datatype]
    belongs to the servicex library, which is not part of this
    repository.  The spec describes it as a query "optionally
    filtered/prioritized by a candidate list, returning the best supported
    one or an absence signal": given a list, it answers the first
    candidate the backend supports. *)
Definition prioritizing {Data} (ds : ServiceXDataset Data) : Prop :=
  ∀ l, first_supported_datatype ds (Many l) = List.find (supports ds) l.

(** Modelled from the spec: a handle of the servicex library that
    supports exactly the formats of [formats]. *)
Definition handle_of {Data} (formats : list string) (descr : string)
    (meth : string -> string -> option string -> outcome Data)
    : ServiceXDataset Data :=
  {| first_supported_datatype := fun d =>
       match d with
       | One f => if bool_decide (f ∈ formats) then Some f else None
       | Many l => List.find (fun f => bool_decide (f ∈ formats)) l
       end;
     ds_str := descr;
     method := meth |}.

(** The node [a] of the store is a call [k(args)]: the terminal node of a
    query of result kind [k]. *)
Definition terminal (w : world) (a : loc) (k : string) (args : list loc)
    : Prop :=
  ∃ f, objs w !! a = Some (Call f args) ∧ objs w !! f = Some (Name k).

(** ** A sample store and sample backends *)

(** A stand-in for the serializer of the qastle library, used where a
    concrete text is needed: it prints calls in prefix form. *)
Fixpoint text_of (fuel : nat) (h : list node) (l : loc) : string :=
  match fuel with
  | 0 => "?"
  | S fuel' =>
    match h !! l with
    | Some (Name id) => id
    | Some (Str s) => "'" +:+ s +:+ "'"
    | Some (Call f args) =>
      "(" +:+ text_of fuel' h f
          +:+ String.concat EmptyString
                (map (fun x => " " +:+ text_of fuel' h x) args)
          +:+ ")"
    | Some (List_ elts) =>
      "(list" +:+ String.concat EmptyString
                    (map (fun x => " " +:+ text_of fuel' h x) elts)
              +:+ ")"
    | _ => "_"
    end
  end.

Definition sample_text (h : list node) (l : loc) : string :=
  text_of (length h) h l.

(** [ResultPandasDF(EventDataset(), ['pt'])] at 5, the same with one
    argument at 6, a [ResultTTree] query at 10, a query of an unknown
    kind at 12. *)
Definition sample_objs : list node :=
  [ Name "EventDataset"; Call 0 []; Str "pt"; List_ [2];
    Name "ResultPandasDF"; Call 4 [1; 3]; Call 4 [1];
    Name "ResultTTree"; Str "t"; Str "f.root"; Call 7 [1; 3; 8; 9];
    Name "ResultMystery"; Call 11 [1; 3] ].

Definition sample_world : world := World sample_objs [].

(** A backend method that answers with its own name. *)
Definition echo (name q : string) (t : option string) : outcome string :=
  Return name.

Definition sample_ds (formats : list string) : ServiceXDataset string :=
  handle_of formats "sample backend" echo.

Definition sample_self (formats : list string) (dry_run : bool)
    : ServiceXDatasetSourceBase string :=
  {| _ds := sample_ds formats; _return_qastle := dry_run |}.

(** ** The dry-run flag and the constructors *)

(** The property [return_qastle] (lines 64-75): its getter and its
    setter, which assigns the field of the object. *)
Definition return_qastle {Data} (self : ServiceXDatasetSourceBase Data)
    : bool :=
  _return_qastle self.

Definition set_return_qastle {Data} (self : ServiceXDatasetSourceBase Data)
    (value : bool) : ServiceXDatasetSourceBase Data :=
  {| _ds := _ds self; _return_qastle := value |}.

(** [q.args.append(ast.Str(s=...))] (lines 179, 207, 208): the
    attribute chain is evaluated first, then the new node is built, then
    the argument list of [q] is extended in place. *)
Definition args_append (q : loc) (s : string) : M unit :=
  let* _ := get_args q in
  let* new := alloc (Str s) in
  fun w => match objs w !! q with
           | Some (Call f args) =>
             (Return tt,
              World (<[q := Call f (args ++ [new])]> (objs w)) (sent w))
           | _ => (Raise (AttributeError "args"), w)
           end.

(** A default argument of a constructor. *)
Definition or_default (given : option string) (dflt : string) : string :=
  match given with Some s => s | None => dflt end.

Section Constructors.

Variable Data : Type.

(** [servicex.utils.DatasetType]: a dataset name or several, opaque here. *)
Variable DatasetType : Type.

(** [ServiceXDataset(sx, backend_name=backend_name)], the constructor of
    the servicex library. *)
Variable ServiceXDataset_new : DatasetType -> string -> ServiceXDataset Data.

(** [func_adl.EventDataset.__init__]: it builds the first node of the
    query and hands it out as [self.query_ast]. *)
Variable EventDataset_init : M loc.

(** The first argument of the constructors, told apart at line 56 by
    [isinstance(sx, (str, Iterable))]. *)
Inductive sx_arg :=
| sx_name (d : DatasetType)
| sx_dataset (ds : ServiceXDataset Data).

(** An object of one of the classes: the fields of lines 60 and 62 and
    the [query_ast] of the base [EventDataset]. *)
Record ServiceXSource := {
  source_base : ServiceXDatasetSourceBase Data;
  query_ast : loc
}.

(** Lines 49-62. *)
Definition ServiceXDatasetSourceBase_init (sx : sx_arg)
    (backend_name : string) : M ServiceXSource :=
  let* q := EventDataset_init in
  let ds := match sx with
            | sx_name d => ServiceXDataset_new d backend_name
            | sx_dataset ds => ds
            end in
  ret {| source_base := {| _ds := ds; _return_qastle := false |};
         query_ast := q |}.

(** Lines 169-179. *)
Definition ServiceXSourceCPPBase_init (sx : sx_arg) (backend_name : string)
    : M ServiceXSource :=
  let* self := ServiceXDatasetSourceBase_init sx backend_name in
  let* _ := args_append (query_ast self) "bogus.root" in
  ret self.

(** Lines 183-187. *)
Definition ServiceXSourceXAOD_init (sx : sx_arg) (backend : option string)
    : M ServiceXSource :=
  ServiceXSourceCPPBase_init sx (or_default backend "xaod").

(** Lines 191-195. *)
Definition ServiceXSourceCMSRun1AOD_init (sx : sx_arg)
    (backend : option string) : M ServiceXSource :=
  ServiceXSourceCPPBase_init sx (or_default backend "cms_run1_aod").

(** Lines 199-208. *)
Definition ServiceXSourceUpROOT_init (sx : sx_arg) (treename : string)
    (backend_name : option string) : M ServiceXSource :=
  let* self :=
    ServiceXDatasetSourceBase_init sx (or_default backend_name "uproot") in
  let* _ := args_append (query_ast self) "bogus.root" in
  let* _ := args_append (query_ast self) treename in
  ret self.

End Constructors.

Arguments sx_name {Data DatasetType} d.
Arguments sx_dataset {Data DatasetType} ds.
Arguments source_base {Data} _.
Arguments query_ast {Data} _.
Arguments ServiceXDatasetSourceBase_init
  {Data DatasetType} ServiceXDataset_new EventDataset_init sx backend_name w.
Arguments ServiceXSourceCPPBase_init
  {Data DatasetType} ServiceXDataset_new EventDataset_init sx backend_name w.
Arguments ServiceXSourceXAOD_init
  {Data DatasetType} ServiceXDataset_new EventDataset_init sx backend w.
Arguments ServiceXSourceCMSRun1AOD_init
  {Data DatasetType} ServiceXDataset_new EventDataset_init sx backend w.
Arguments ServiceXSourceUpROOT_init
  {Data DatasetType} ServiceXDataset_new EventDataset_init sx treename
  backend_name w.

(** ** More samples *)

(** A backend that answers every format query with ['csv']. *)
Definition csv_ds : ServiceXDataset string :=
  {| first_supported_datatype := fun _ => Some "csv";
     ds_str := "csv backend";
     method := echo |}.

(** A stand-in for [EventDataset.__init__]: the call [EventDataset(x)]
    with one argument already in place. *)
Definition sample_EventDataset_init : M loc :=
  let* f := alloc (Name "EventDataset") in
  let* x := alloc (Str "x") in
  alloc (Call f [x]).

(** A stand-in for the constructor of the servicex library: a backend
    named ['uproot'] delivers parquet, any other one root. *)
Definition sample_ServiceXDataset_new (d : list string)
    (backend_name : string) : ServiceXDataset string :=
  handle_of (if bool_decide (backend_name = "uproot")
             then ["parquet"] else ["root"])
            backend_name echo.

Definition empty_world : world := World [] [].

(** * Properties *)

(** ** The monad and the store *)

Lemma bind_Return {A B} (c : M A) (k : A -> M B) w a w' :
  c w = (Return a, w') → bind c k w = k a w'.
Proof. intros E. unfold bind. by rewrite E. Qed.

Lemma bind_Raise {A B} (c : M A) (k : A -> M B) w e w' :
  c w = (Raise e, w') → bind c k w = (Raise e, w').
Proof. intros E. unfold bind. by rewrite E. Qed.

Lemma get_func_Call w a f args :
  objs w !! a = Some (Call f args) → get_func a w = (Return f, w).
Proof. intros E. unfold get_func. by rewrite E. Qed.

Lemma get_args_Call w a f args :
  objs w !! a = Some (Call f args) → get_args a w = (Return args, w).
Proof. intros E. unfold get_args. by rewrite E. Qed.

Lemma get_id_Name w n id :
  objs w !! n = Some (Name id) → get_id n w = (Return id, w).
Proof. intros E. unfold get_id. by rewrite E. Qed.

(** Allocation only extends the store. *)
Lemma alloc_old (h new : list node) (l : loc) (n : node) :
  h !! l = Some n → (h ++ new) !! l = Some n.
Proof. intros E. by apply lookup_app_l_Some. Qed.

Lemma alloc_new (h new : list node) (i : nat) :
  (h ++ new) !! (length h + i) = new !! i.
Proof.
  rewrite lookup_app_r by apply Nat.le_add_r.
  by rewrite Nat.add_comm, Nat.add_sub.
Qed.

Lemma alloc_new_0 (h new : list node) :
  (h ++ new) !! length h = new !! 0.
Proof. by rewrite <- (alloc_new h new 0), Nat.add_0_r. Qed.

Lemma alloc_fresh (h : list node) (i : nat) : h !! (length h + i) = None.
Proof. apply lookup_ge_None_2, Nat.le_add_r. Qed.

Lemma terminal_extend w w' a k args :
  objs w `prefix_of` objs w' → terminal w a k args → terminal w' a k args.
Proof.
  intros [new E] (f & Ha & Hf). exists f.
  rewrite E. split; by apply alloc_old.
Qed.

(** ** The tables *)

Lemma ds_map_keys k :
  is_Some (_ds_map !! k) ↔
  k = "ResultTTree" ∨ k = "ResultParquet"
  ∨ k = "ResultPandasDF" ∨ k = "ResultAwkwardArray".
Proof.
  unfold _ds_map. cbn [list_to_map foldr fst snd uncurry].
  rewrite !lookup_insert_is_Some, lookup_empty. split.
  - intros [E | [_ [E | [_ [E | [_ [E | [_ [x E]]]]]]]]];
      [subst k; tauto .. | discriminate].
  - intros [E | [E | [E | E]]]; subst k;
      repeat (first [ left; reflexivity | right; split; [done |] ]).
Qed.

Lemma remote_native_cases k :
  remote_native k ↔ k = "ResultTTree" ∨ k = "ResultParquet".
Proof.
  unfold remote_native, required_format.
  repeat case_bool_decide; subst; split;
    [ by left | by eauto | by right | by eauto
    | by intros [? ?] | by intros [?|?] ].
Qed.

Lemma local_materialized_cases k :
  local_materialized k ↔ k = "ResultPandasDF" ∨ k = "ResultAwkwardArray".
Proof.
  unfold local_materialized, _execute_locally.
  rewrite !elem_of_cons, elem_of_nil. tauto.
Qed.

Lemma ds_map_known k : is_Some (_ds_map !! k) ↔ known_kind k.
Proof.
  unfold known_kind.
  rewrite ds_map_keys, remote_native_cases, local_materialized_cases.
  tauto.
Qed.

Lemma ds_map_unknown k : ¬ known_kind k → _ds_map !! k = None.
Proof.
  intros H. apply eq_None_not_Some. by rewrite ds_map_known.
Qed.

(** ** The three methods, case by case *)

Section Methods.

Context {Data : Type}.
Variable python_ast_to_text_ast : list node -> loc -> string.
Implicit Types (self : ServiceXDatasetSourceBase Data) (w : world).
Implicit Types (a f : loc) (k : string) (args : list loc).

Lemma check_data_format_request_eq self k w :
  check_data_format_request self k w =
  (match required_format k with
   | Some fmt =>
     if supports (_ds self) fmt then Return tt
     else Raise (FuncADLServerException
                   (k +:+ " is not supported by " +:+ ds_str (_ds self)))
   | None => Return tt
   end, w).
Proof.
  unfold check_data_format_request, required_format, supports.
  repeat case_bool_decide; subst; try discriminate; cbn [andb orb];
    repeat match goal with
           | |- context [is_none ?o] => destruct o; cbn
           end; reflexivity.
Qed.

Lemma generate_qastle_source_pass self w a k args :
  terminal w a k args → k ∉ _execute_locally →
  generate_qastle_source self a w = (Return a, w).
Proof.
  intros (f & Ha & Hf) Hk. unfold generate_qastle_source.
  erewrite bind_Return by (eapply get_func_Call; eassumption).
  erewrite bind_Return by (eapply get_id_Name; eassumption).
  by rewrite bool_decide_false.
Qed.

Lemma generate_qastle_source_local self w a k args :
  terminal w a k args → k ∈ _execute_locally →
  generate_qastle_source self a w =
  match first_supported_datatype (_ds self) (Many ["parquet"; "root"]) with
  | None =>
    (Raise (AssertionError "Unsupported ServiceX returned format"), w)
  | Some fmt =>
    match _format_map !! fmt with
    | None => (Raise (KeyError fmt), w)
    | Some m =>
      match args with
      | [stream; col_names] =>
        let n := length (objs w) in
        if bool_decide (m = "get_data_rootfiles_async") then
          (Return (n + 3),
           World (objs w ++ [Name "ResultTTree"; Str "treeme";
                             Str "junk.root";
                             Call n [stream; col_names; n + 1; n + 2]])
                 (sent w))
        else if bool_decide (m = "get_data_parquet_async") then
          (Return (n + 2),
           World (objs w ++ [Name "ResultParquet"; Str "junk.parquet";
                             Call n [stream; col_names; n + 1]])
                 (sent w))
        else (Raise (AssertionError ("Do not know how to call " +:+ m)), w)
      | _ =>
        (Raise (FuncADLServerException
                  ("Do not understand how to call " +:+ k
                   +:+ " - wrong number of arguments")), w)
      end
    end
  end.
Proof.
  intros (f & Ha & Hf) Hk. unfold generate_qastle_source.
  erewrite bind_Return by (eapply get_func_Call; eassumption).
  erewrite bind_Return by (eapply get_id_Name; eassumption).
  rewrite bool_decide_true by done.
  destruct (first_supported_datatype _ _) as [fmt|]; [|done].
  destruct (_format_map !! fmt) as [m|]; [|done].
  erewrite bind_Return by (eapply get_args_Call; eassumption).
  destruct args as [|stream [|col_names [|x args]]];
    [done | done | | done].
  rewrite bool_decide_false by (cbn; lia).
  unfold bind, index, alloc, ret; cbn.
  repeat case_bool_decide; [| | done];
    rewrite !length_app, <- !app_assoc; cbn [length app];
    by rewrite <- !Nat.add_assoc.
Qed.

(** Whatever the query and the backend, the rewrite only adds objects to
    the store and sends nothing. *)
Lemma generate_qastle_source_frame self a w :
  objs w `prefix_of` objs (generate_qastle_source self a w).2
  ∧ sent (generate_qastle_source self a w).2 = sent w.
Proof.
  destruct (objs w !! a) as [na|] eqn:Ha;
    [destruct na as [| | | | | |f args];
     [| | | | | |destruct (objs w !! f) as [nf|] eqn:Hf;
       [destruct nf as [k| | | | | |]|]]|];
    try (unfold generate_qastle_source, bind, get_func, get_id;
         rewrite ?Ha, ?Hf; done).
  assert (terminal w a k args) as Ht by (exists f; done).
  destruct (decide (k ∈ _execute_locally)) as [Hk|Hk].
  - rewrite (generate_qastle_source_local _ _ _ _ _ Ht Hk).
    repeat case_match; cbn; split; try done; by eexists.
  - by rewrite (generate_qastle_source_pass _ _ _ _ _ Ht Hk).
Qed.

Lemma generate_qastle_eq self a w :
  generate_qastle python_ast_to_text_ast self a w =
  match generate_qastle_source self a w with
  | (Return source, w') =>
    (Return (python_ast_to_text_ast (objs w') source), w')
  | (Raise e, w') => (Raise e, w')
  end.
Proof. reflexivity. Qed.

Lemma execute_result_async_eq self a t w k args :
  terminal w a k args →
  execute_result_async python_ast_to_text_ast self a t w =
  match check_data_format_request self k w with
  | (Raise e, w1) => (Raise e, w1)
  | (Return _, w1) =>
    match generate_qastle python_ast_to_text_ast self a w1 with
    | (Raise e, w2) => (Raise e, w2)
    | (Return q, w2) =>
      if _return_qastle self then (Return (Qastle q), w2)
      else
        match _ds_map !! k with
        | None =>
          (Raise (FuncADLServerException
                    ("Internal error - asked for " +:+ k
                     +:+ " - but this dataset does not support it.")), w2)
        | Some name => invoke (_ds self) name q t w2
        end
    end
  end.
Proof.
  intros (f & Ha & Hf). unfold execute_result_async.
  erewrite bind_Return by (eapply get_func_Call; eassumption).
  erewrite bind_Return by (eapply get_id_Name; eassumption).
  unfold bind.
  destruct (check_data_format_request self k w) as [[[]|e] w1]; [|done].
  destruct (generate_qastle _ self a w1) as [[q|e] w2]; [|done].
  by destruct (_return_qastle self), (_ds_map !! k).
Qed.

(** A node that is not a call of a name stops the entry point at its
    first attribute read. *)
Lemma execute_result_async_cases self a t w :
  (∃ k args, terminal w a k args)
  ∨ (∃ e, execute_result_async python_ast_to_text_ast self a t w
          = (Raise e, w)).
Proof.
  destruct (objs w !! a) as [na|] eqn:Ha;
    [destruct na as [| | | | | |f args];
     [| | | | | |destruct (objs w !! f) as [nf|] eqn:Hf;
       [destruct nf as [k| | | | | |]|]]|];
    try (right; unfold execute_result_async, bind, get_func, get_id;
         rewrite ?Ha, ?Hf; by eexists).
  left. by exists k, args, f.
Qed.

Lemma generate_qastle_sent self a w :
  sent (generate_qastle python_ast_to_text_ast self a w).2 = sent w.
Proof.
  rewrite generate_qastle_eq.
  pose proof (generate_qastle_source_frame self a w) as [_ Hs].
  by destruct (generate_qastle_source self a w) as [[source|e] w'].
Qed.

(** ** The format query *)

Lemma prefer_parquet (ds : ServiceXDataset Data) :
  prioritizing ds → supports ds "parquet" = true →
  first_supported_datatype ds (Many ["parquet"; "root"]) = Some "parquet".
Proof. intros Hp Hs. rewrite Hp. cbn. by rewrite Hs. Qed.

Lemma prefer_root (ds : ServiceXDataset Data) :
  prioritizing ds → supports ds "parquet" = false →
  supports ds "root" = true →
  first_supported_datatype ds (Many ["parquet"; "root"]) = Some "root".
Proof. intros Hp Hs Hr. rewrite Hp. cbn. by rewrite Hs, Hr. Qed.

Lemma prefer_none (ds : ServiceXDataset Data) :
  prioritizing ds → supports ds "parquet" = false →
  supports ds "root" = false →
  first_supported_datatype ds (Many ["parquet"; "root"]) = None.
Proof. intros Hp Hs Hr. rewrite Hp. cbn. by rewrite Hs, Hr. Qed.

Lemma handle_of_supports formats descr meth (fmt : string) :
  supports (@handle_of Data formats descr meth) fmt
  = bool_decide (fmt ∈ formats).
Proof. unfold supports; cbn. by case_bool_decide. Qed.

Lemma handle_of_prioritizing formats descr meth :
  prioritizing (@handle_of Data formats descr meth).
Proof.
  intros l; cbn. induction l as [|fmt l IH]; [done|]; cbn.
  rewrite handle_of_supports. case_bool_decide; [done|apply IH].
Qed.

Lemma format_map_parquet :
  _format_map !! "parquet" = Some "get_data_parquet_async".
Proof. reflexivity. Qed.

Lemma format_map_root :
  _format_map !! "root" = Some "get_data_rootfiles_async".
Proof. reflexivity. Qed.

(** With two arguments and a supported format the rewrite returns, and
    what it returns is a new object. *)
Lemma generate_qastle_source_returns self w a k (stream col_names : loc) :
  k ∈ _execute_locally → terminal w a k [stream; col_names] →
  prioritizing (_ds self) →
  supports (_ds self) "parquet" = true ∨ supports (_ds self) "root" = true →
  ∃ (source : loc) w',
    generate_qastle_source self a w = (Return source, w')
    ∧ objs w !! source = None.
Proof.
  intros Hk Ht Hp Hs.
  rewrite (generate_qastle_source_local _ _ _ _ _ Ht Hk).
  destruct (supports (_ds self) "parquet") eqn:Hq.
  - rewrite (prefer_parquet _ Hp Hq), format_map_parquet. cbn zeta.
    rewrite bool_decide_false, bool_decide_true by done.
    eexists _, _. split; [done|apply alloc_fresh].
  - destruct Hs as [?|Hr]; [done|].
    rewrite (prefer_root _ Hp Hq Hr), format_map_root. cbn zeta.
    rewrite bool_decide_true by done.
    eexists _, _. split; [done|apply alloc_fresh].
Qed.

End Methods.

(** * The claims *)

Section Claims.

Context {Data : Type}.
Variable python_ast_to_text_ast : list node -> loc -> string.
Implicit Types (self : ServiceXDatasetSourceBase Data) (w : world).
Implicit Types (a : loc) (k : string) (args : list loc).

(** C1, as the code has it: the keys of the dispatch table [_ds_map] are
    exactly the four result kinds.  Both remote-native kinds are keys,
    and so are both local-materialized kinds, each mapped to a backend
    method of its own. *)
Theorem ds_map_kinds k :
  (is_Some (_ds_map !! k) ↔ remote_native k ∨ local_materialized k)
  ∧ _ds_map !! "ResultTTree" = Some "get_data_rootfiles_async"
  ∧ _ds_map !! "ResultParquet" = Some "get_data_parquet_async"
  ∧ _ds_map !! "ResultPandasDF" = Some "get_data_pandas_df_async"
  ∧ _ds_map !! "ResultAwkwardArray" = Some "get_data_awkward_async".
Proof. split; [apply ds_map_known | by repeat split]. Qed.

(** C5: the capability check changes nothing in the world; for a
    remote-native kind it raises [FuncADLServerException], naming the
    kind and the backend, exactly when the backend reports no support
    for the format the kind requires, and returns otherwise; for any
    other name, the local-materialized kinds included, it returns. *)
Theorem check_data_format_request_spec self k w :
  (check_data_format_request self k w).2 = w
  ∧ (∀ fmt, required_format k = Some fmt →
       ((check_data_format_request self k w).1
          = Raise (FuncADLServerException
                     (k +:+ " is not supported by " +:+ ds_str (_ds self)))
        ↔ supports (_ds self) fmt = false)
       ∧ ((check_data_format_request self k w).1 = Return tt
          ↔ supports (_ds self) fmt = true))
  ∧ (¬ remote_native k → (check_data_format_request self k w).1 = Return tt)
  ∧ required_format "ResultTTree" = Some "root"
  ∧ required_format "ResultParquet" = Some "parquet".
Proof.
  rewrite check_data_format_request_eq. cbn [fst snd].
  split; [done|]. split; [|split; [|done]].
  - intros fmt ->. destruct (supports (_ds self) fmt); by repeat split.
  - intros Hk. destruct (required_format k) as [fmt|] eqn:E; [|done].
    destruct Hk. unfold remote_native. by rewrite E.
Qed.

(** C10: for a terminal name outside the four known kinds the capability
    check returns, the rewrite hands back the node it was given, the
    dry run returns the text of that node, and a real run raises the
    internal dispatch error, with nothing sent to the backend. *)
Theorem unknown_kind_passes self a t w k args :
  ¬ known_kind k → terminal w a k args →
  check_data_format_request self k w = (Return tt, w)
  ∧ generate_qastle_source self a w = (Return a, w)
  ∧ (_return_qastle self = true →
     execute_result_async python_ast_to_text_ast self a t w
     = (Return (Qastle (python_ast_to_text_ast (objs w) a)), w))
  ∧ (_return_qastle self = false →
     execute_result_async python_ast_to_text_ast self a t w
     = (Raise (FuncADLServerException
                 ("Internal error - asked for " +:+ k
                  +:+ " - but this dataset does not support it.")), w)).
Proof.
  intros Hk Ht.
  assert (check_data_format_request self k w = (Return tt, w)) as Hc.
  { rewrite check_data_format_request_eq.
    destruct (required_format k) as [fmt|] eqn:E; [|done].
    destruct Hk. left. unfold remote_native. by rewrite E. }
  assert (generate_qastle_source self a w = (Return a, w)) as Hg.
  { eapply generate_qastle_source_pass; [done|].
    intros Hl. apply Hk. by right. }
  split; [done|]. split; [done|].
  rewrite (execute_result_async_eq _ _ _ _ _ _ _ Ht), Hc.
  rewrite generate_qastle_eq, Hg, (ds_map_unknown _ Hk).
  split; by intros ->.
Qed.

(** C2, as the code has it: for a local-materialized kind whose backend
    supports neither remote-native format, the rewrite stops at the
    assertion of line 111: it raises [AssertionError] with the message
    'Unsupported ServiceX returned format', before the arguments are
    looked at, and leaves the world as it was. *)
Theorem rewrite_unsupported_asserts self w a k args :
  local_materialized k → terminal w a k args →
  prioritizing (_ds self) →
  supports (_ds self) "parquet" = false →
  supports (_ds self) "root" = false →
  generate_qastle python_ast_to_text_ast self a w
  = (Raise (AssertionError "Unsupported ServiceX returned format"), w).
Proof.
  intros Hk Ht Hp Hq Hr.
  rewrite generate_qastle_eq, (generate_qastle_source_local _ _ _ _ _ Ht Hk).
  by rewrite (prefer_none _ Hp Hq Hr).
Qed.

(** C3: for a local-materialized kind with exactly two arguments and a
    backend that supports a remote-native format, the rewrite returns a
    new terminal node whose first two arguments are the very two
    arguments of the original node, every object of the old store being
    unchanged; the arguments after them are new string constants:
    'junk.parquet', or 'treeme' and 'junk.root'. *)
Theorem rewrite_preserves_arguments self w a k (stream col_names : loc) :
  local_materialized k → terminal w a k [stream; col_names] →
  prioritizing (_ds self) →
  supports (_ds self) "parquet" = true ∨ supports (_ds self) "root" = true →
  ∃ (source : loc) w' k' (extra : list loc),
    generate_qastle_source self a w = (Return source, w')
    ∧ terminal w' source k' ([stream; col_names] ++ extra)
    ∧ (∀ (l : loc) (n : node), objs w !! l = Some n → objs w' !! l = Some n)
    ∧ Forall (λ l : loc, objs w !! l = None) extra
    ∧ (((λ l : loc, objs w' !! l) <$> extra = [Some (Str "junk.parquet")])
       ∨ ((λ l : loc, objs w' !! l) <$> extra
          = [Some (Str "treeme"); Some (Str "junk.root")])).
Proof.
  intros Hk Ht Hp Hs.
  rewrite (generate_qastle_source_local _ _ _ _ _ Ht Hk).
  destruct (supports (_ds self) "parquet") eqn:Hq.
  - rewrite (prefer_parquet _ Hp Hq), format_map_parquet. cbn zeta.
    rewrite bool_decide_false, bool_decide_true by done.
    eexists _, _, "ResultParquet", [_]. split; [done|]. cbn [objs].
    split; [|split; [|split]].
    + exists (length (objs w)); cbn [objs].
      by rewrite alloc_new, alloc_new_0.
    + intros l n. apply alloc_old.
    + repeat constructor. apply alloc_fresh.
    + left. cbn. by rewrite alloc_new.
  - destruct Hs as [?|Hr]; [done|].
    rewrite (prefer_root _ Hp Hq Hr), format_map_root. cbn zeta.
    rewrite bool_decide_true by done.
    eexists _, _, "ResultTTree", [_; _]. split; [done|]. cbn [objs].
    split; [|split; [|split]].
    + exists (length (objs w)); cbn [objs].
      by rewrite alloc_new, alloc_new_0.
    + intros l n. apply alloc_old.
    + repeat constructor; apply alloc_fresh.
    + right. cbn. by rewrite !alloc_new.
Qed.

(** C4: for a local-materialized kind the rewrite asks the backend for
    the first supported format of the list parquet, root (the order of
    [_format_list]) and builds the terminal node of that format.  With a
    backend that supports parquet, alone or together with root, the new
    terminal node is a ['ResultParquet'] call; with one that supports
    root and not parquet it is a ['ResultTTree'] call; and whatever node
    the rewrite returns, its kind is the one whose format is the first
    of [_format_list] the backend supports. *)
Theorem rewrite_selects_preferred_format self w a k (stream col_names : loc) :
  local_materialized k → terminal w a k [stream; col_names] →
  prioritizing (_ds self) →
  (supports (_ds self) "parquet" = true →
   first_supported_datatype (_ds self) (Many _format_list) = Some "parquet"
   ∧ ∃ (source s : loc) w',
       generate_qastle_source self a w = (Return source, w')
       ∧ terminal w' source "ResultParquet" [stream; col_names; s])
  ∧ (supports (_ds self) "parquet" = false →
     supports (_ds self) "root" = true →
     first_supported_datatype (_ds self) (Many _format_list) = Some "root"
     ∧ ∃ (source s1 s2 : loc) w',
         generate_qastle_source self a w = (Return source, w')
         ∧ terminal w' source "ResultTTree" [stream; col_names; s1; s2])
  ∧ (∀ (source : loc) w' k' args',
       generate_qastle_source self a w = (Return source, w') →
       terminal w' source k' args' →
       ∃ fmt, required_format k' = Some fmt
              ∧ List.find (supports (_ds self)) _format_list = Some fmt).
Proof.
  intros Hk Ht Hp.
  rewrite (generate_qastle_source_local _ _ _ _ _ Ht Hk).
  unfold _format_list. split; [|split].
  - intros Hq. rewrite (prefer_parquet _ Hp Hq), format_map_parquet.
    split; [done|]. cbn zeta.
    rewrite bool_decide_false, bool_decide_true by done.
    eexists _, _, _. split; [done|].
    exists (length (objs w)); cbn [objs].
    by rewrite alloc_new, alloc_new_0.
  - intros Hq Hr. rewrite (prefer_root _ Hp Hq Hr), format_map_root.
    split; [done|]. cbn zeta. rewrite bool_decide_true by done.
    eexists _, _, _, _. split; [done|].
    exists (length (objs w)); cbn [objs].
    by rewrite alloc_new, alloc_new_0.
  - intros source w' k' args'. rewrite Hp.
    destruct (List.find (supports (_ds self)) ["parquet"; "root"])
      as [fmt|] eqn:Hfind; [|done].
    assert (fmt = "parquet" ∨ fmt = "root") as Hfmt.
    { apply find_some in Hfind as [Hin _].
      destruct Hin as [<- | [<- | []]]; auto. }
    destruct Hfmt as [-> | ->].
    + rewrite format_map_parquet. cbn zeta.
      rewrite bool_decide_false, bool_decide_true by done.
      intros Hg (f & Hsrc & Hf). simplify_eq. cbn [objs] in Hsrc, Hf.
      rewrite alloc_new in Hsrc. cbn in Hsrc. simplify_eq.
      rewrite alloc_new_0 in Hf. cbn in Hf. simplify_eq.
      by exists "parquet".
    + rewrite format_map_root. cbn zeta.
      rewrite bool_decide_true by done.
      intros Hg (f & Hsrc & Hf). simplify_eq. cbn [objs] in Hsrc, Hf.
      rewrite alloc_new in Hsrc. cbn in Hsrc. simplify_eq.
      rewrite alloc_new_0 in Hf. cbn in Hf. simplify_eq.
      by exists "root".
Qed.

(** C6, as the code has it: for a local-materialized kind whose terminal
    node does not carry exactly two arguments the rewrite always raises
    and leaves the store as it was, so nothing is truncated or padded;
    when the backend supports a remote-native format the exception is
    the [FuncADLServerException] 'Do not understand how to call ... -
    wrong number of arguments'. *)
Theorem rewrite_wrong_arity self w a k args :
  local_materialized k → terminal w a k args → length args ≠ 2 →
  (∃ e, generate_qastle python_ast_to_text_ast self a w = (Raise e, w))
  ∧ (prioritizing (_ds self) →
     supports (_ds self) "parquet" = true
     ∨ supports (_ds self) "root" = true →
     generate_qastle python_ast_to_text_ast self a w
     = (Raise (FuncADLServerException
                 ("Do not understand how to call " +:+ k
                  +:+ " - wrong number of arguments")), w)).
Proof.
  intros Hk Ht Hn.
  rewrite generate_qastle_eq, (generate_qastle_source_local _ _ _ _ _ Ht Hk).
  assert (∀ m : string,
    match args with
    | [stream; col_names] =>
      let n := length (objs w) in
      if bool_decide (m = "get_data_rootfiles_async") then
        (Return (n + 3),
         World (objs w ++ [Name "ResultTTree"; Str "treeme"; Str "junk.root";
                           Call n [stream; col_names; n + 1; n + 2]])
               (sent w))
      else if bool_decide (m = "get_data_parquet_async") then
        (Return (n + 2),
         World (objs w ++ [Name "ResultParquet"; Str "junk.parquet";
                           Call n [stream; col_names; n + 1]])
               (sent w))
      else (Raise (AssertionError ("Do not know how to call " +:+ m)), w)
    | _ =>
      (Raise (FuncADLServerException
                ("Do not understand how to call " +:+ k
                 +:+ " - wrong number of arguments")), w)
    end
    = (Raise (FuncADLServerException
                ("Do not understand how to call " +:+ k
                 +:+ " - wrong number of arguments")), w)) as Harity.
  { intros m. by destruct args as [|? [|? [|? ?]]]. }
  split.
  - destruct (first_supported_datatype _ _) as [fmt|]; [|by eexists].
    destruct (_format_map !! fmt) as [m|]; [|by eexists].
    rewrite Harity. by eexists.
  - intros Hp Hs. destruct (supports (_ds self) "parquet") eqn:Hq.
    + by rewrite (prefer_parquet _ Hp Hq), format_map_parquet, Harity.
    + destruct Hs as [?|Hr]; [done|].
      by rewrite (prefer_root _ Hp Hq Hr), format_map_root, Harity.
Qed.

(** C9: when the rewrite of a local-materialized query returns, the old
    store is a prefix of the new one: every object that existed keeps
    its contents, the original terminal node among them with its name
    and its argument list, and the node returned is a new object, not
    the original one. *)
Theorem rewrite_builds_new_root self w a k args (source : loc) w' :
  local_materialized k → terminal w a k args →
  generate_qastle_source self a w = (Return source, w') →
  objs w `prefix_of` objs w'
  ∧ (∀ (l : loc) (n : node), objs w !! l = Some n → objs w' !! l = Some n)
  ∧ terminal w' a k args
  ∧ objs w !! source = None
  ∧ is_Some (objs w' !! source)
  ∧ source ≠ a.
Proof.
  intros Hk Ht Hg.
  pose proof (generate_qastle_source_frame self a w) as [Hpre _].
  rewrite Hg in Hpre. cbn [snd] in Hpre.
  split; [done|]. split.
  { destruct Hpre as [new ->]. intros l n. apply alloc_old. }
  split; [by eapply terminal_extend|].
  rewrite (generate_qastle_source_local _ _ _ _ _ Ht Hk) in Hg.
  assert (objs w !! source = None ∧ is_Some (objs w' !! source)) as [Hs Hs'].
  { repeat case_match; cbn zeta in Hg; simplify_eq; cbn [objs];
      (split; [apply alloc_fresh | rewrite alloc_new; by eexists]). }
  split; [done|]. split; [done|].
  intros ->. destruct Ht as (f & Ha & _). congruence.
Qed.

(** C7: with the dry-run flag set no backend method is invoked, whatever
    the request; a value handed back is the text of the node the rewrite
    produced, which is the original node unless the kind is
    local-materialized; and the run does hand back that text, for a
    supported remote-native kind as for a local-materialized kind with
    two arguments and a supported format. *)
Theorem dry_run_returns_wire_text self a t w :
  _return_qastle self = true →
  sent (execute_result_async python_ast_to_text_ast self a t w).2 = sent w
  ∧ (∀ v, (execute_result_async python_ast_to_text_ast self a t w).1
          = Return v →
       ∃ k args (source : loc) w',
         terminal w a k args
         ∧ generate_qastle_source self a w = (Return source, w')
         ∧ (execute_result_async python_ast_to_text_ast self a t w).2 = w'
         ∧ v = Qastle (python_ast_to_text_ast (objs w') source)
         ∧ (¬ local_materialized k → source = a))
  ∧ (∀ k args fmt, terminal w a k args →
       required_format k = Some fmt → supports (_ds self) fmt = true →
       execute_result_async python_ast_to_text_ast self a t w
       = (Return (Qastle (python_ast_to_text_ast (objs w) a)), w))
  ∧ (∀ k (stream col_names : loc), terminal w a k [stream; col_names] →
       local_materialized k → prioritizing (_ds self) →
       supports (_ds self) "parquet" = true
       ∨ supports (_ds self) "root" = true →
       ∃ (source : loc) w',
         generate_qastle_source self a w = (Return source, w')
         ∧ source ≠ a
         ∧ execute_result_async python_ast_to_text_ast self a t w
           = (Return (Qastle (python_ast_to_text_ast (objs w') source)), w')).
Proof.
  intros Hdry.
  assert (∀ k, local_materialized k → required_format k = None) as Hloc.
  { intros k [-> | ->]%local_materialized_cases; reflexivity. }
  split; [|split; [|split]].
  - destruct (execute_result_async_cases python_ast_to_text_ast self a t w)
      as [(k & args & Ht) | (e & ->)]; [|done].
    rewrite (execute_result_async_eq _ _ _ _ _ _ _ Ht).
    rewrite check_data_format_request_eq, Hdry.
    pose proof (generate_qastle_sent python_ast_to_text_ast self a w) as Hs.
    destruct (generate_qastle _ self a w) as [[q|e] w2];
      by repeat case_match.
  - intros v Hv.
    destruct (execute_result_async_cases python_ast_to_text_ast self a t w)
      as [(k & args & Ht) | (e & He)]; [|by rewrite He in Hv].
    rewrite (execute_result_async_eq _ _ _ _ _ _ _ Ht) in Hv |- *.
    rewrite check_data_format_request_eq, Hdry, generate_qastle_eq in Hv |- *.
    destruct (generate_qastle_source self a w) as [[source|e] w2] eqn:Hg;
      repeat case_match; simplify_eq; cbn [fst snd] in *; simplify_eq.
    all: exists k, args, source, w2; repeat split; try done.
    all: intros Hk; rewrite (generate_qastle_source_pass _ _ _ _ _ Ht Hk) in Hg;
      by simplify_eq.
  - intros k args fmt Ht Hf Hs.
    rewrite (execute_result_async_eq _ _ _ _ _ _ _ Ht).
    rewrite check_data_format_request_eq, Hf, Hs, Hdry, generate_qastle_eq.
    erewrite generate_qastle_source_pass; [done..|].
    intros Hk. by rewrite (Hloc _ Hk) in Hf.
  - intros k stream col_names Ht Hk Hp Hs.
    destruct (generate_qastle_source_returns _ _ _ _ _ _ Hk Ht Hp Hs)
      as (source & w' & Hg & Hnew).
    exists source, w'. split; [done|]. split.
    { intros ->. destruct Ht as (f & Ha & _). congruence. }
    rewrite (execute_result_async_eq _ _ _ _ _ _ _ Ht).
    by rewrite check_data_format_request_eq, (Hloc _ Hk), Hdry,
      generate_qastle_eq, Hg.
Qed.

(** C8: in a real run, once the check has passed and the text [q] has
    been produced, the backend method is looked up under the kind of the
    original terminal node.  A kind absent from [_ds_map] raises the
    internal error and nothing is sent.  Otherwise exactly one call, of
    that method with [q] and the title, is added to what was sent, and
    its result or its exception is passed on as it is.  For a
    local-materialized kind the method found is the kind's own, not the
    one of the format the query was rewritten to. *)
Theorem execute_dispatches_on_original_kind self a t w k args q w1 :
  _return_qastle self = false → terminal w a k args →
  check_data_format_request self k w = (Return tt, w) →
  generate_qastle python_ast_to_text_ast self a w = (Return q, w1) →
  (_ds_map !! k = None →
   execute_result_async python_ast_to_text_ast self a t w
   = (Raise (FuncADLServerException
               ("Internal error - asked for " +:+ k
                +:+ " - but this dataset does not support it.")), w1)
   ∧ sent w1 = sent w)
  ∧ (∀ name, _ds_map !! k = Some name →
       (execute_result_async python_ast_to_text_ast self a t w).1
       = match method (_ds self) name q t with
         | Return d => Return (Materialized d)
         | Raise e => Raise e
         end
       ∧ sent (execute_result_async python_ast_to_text_ast self a t w).2
         = sent w ++ [Request name q t]
       ∧ objs (execute_result_async python_ast_to_text_ast self a t w).2
         = objs w1)
  ∧ (local_materialized k →
     ∃ name, _ds_map !! k = Some name
             ∧ name ≠ "get_data_rootfiles_async"
             ∧ name ≠ "get_data_parquet_async").
Proof.
  intros Hrun Ht Hc Hg.
  pose proof (generate_qastle_sent python_ast_to_text_ast self a w) as Hs.
  rewrite Hg in Hs. cbn [snd] in Hs.
  rewrite (execute_result_async_eq _ _ _ _ _ _ _ Ht), Hc, Hg, Hrun.
  split; [|split].
  - by intros ->.
  - intros name ->. unfold invoke. rewrite Hs.
    by destruct (method (_ds self) name q t).
  - intros [-> | ->]%local_materialized_cases; by eexists.
Qed.

End Claims.

(** * The claims on the sample store *)

Lemma sample_local : local_materialized "ResultPandasDF".
Proof. apply local_materialized_cases. by left. Qed.

Lemma sample_terminal_two : terminal sample_world 5 "ResultPandasDF" [1; 3].
Proof. exists 4. by split. Qed.

Lemma sample_terminal_one : terminal sample_world 6 "ResultPandasDF" [1].
Proof. exists 4. by split. Qed.

Lemma sample_terminal_unknown :
  terminal sample_world 12 "ResultMystery" [1; 3].
Proof. exists 11. by split. Qed.

Lemma sample_unknown : ¬ known_kind "ResultMystery".
Proof.
  intros [[? | ?]%remote_native_cases | [? | ?]%local_materialized_cases];
    discriminate.
Qed.

(** C1 fails on the code: ['ResultPandasDF'] and ['ResultAwkwardArray']
    are local-materialized, not remote-native, and both are keys of
    [_ds_map]. *)
Lemma ds_map_has_local_kinds :
  local_materialized "ResultPandasDF"
  ∧ ¬ remote_native "ResultPandasDF"
  ∧ _ds_map !! "ResultPandasDF" = Some "get_data_pandas_df_async"
  ∧ _ds_map !! "ResultAwkwardArray" = Some "get_data_awkward_async"
  ∧ ¬ (∀ k, is_Some (_ds_map !! k) → remote_native k)
  ∧ ¬ (∀ k, local_materialized k → _ds_map !! k = None).
Proof.
  assert (¬ remote_native "ResultPandasDF") as Hn.
  { intros [? | ?]%remote_native_cases; discriminate. }
  split; [apply sample_local|]. split; [done|].
  split; [done|]. split; [done|]. split.
  - intros H. apply Hn, H. by eexists.
  - intros H. by specialize (H _ sample_local).
Qed.

(** C2 fails on the code: a ['ResultPandasDF'] query on a backend that
    supports no format ends in [AssertionError], which is not the
    [FuncADLServerException] of the capability check. *)
Lemma rewrite_unsupported_is_assertion :
  local_materialized "ResultPandasDF"
  ∧ terminal sample_world 5 "ResultPandasDF" [1; 3]
  ∧ supports (sample_ds []) "parquet" = false
  ∧ supports (sample_ds []) "root" = false
  ∧ generate_qastle sample_text (sample_self [] true) 5 sample_world
    = (Raise (AssertionError "Unsupported ServiceX returned format"),
       sample_world)
  ∧ ∀ msg,
      (generate_qastle sample_text (sample_self [] true) 5 sample_world).1
      ≠ Raise (FuncADLServerException msg).
Proof.
  split; [apply sample_local|]. split; [apply sample_terminal_two|].
  by repeat split.
Qed.

Lemma rewrite_unsupported_asserts_witness :
  generate_qastle sample_text (sample_self [] true) 5 sample_world
  = (Raise (AssertionError "Unsupported ServiceX returned format"),
     sample_world).
Proof.
  apply (rewrite_unsupported_asserts sample_text (sample_self [] true)
           sample_world 5 "ResultPandasDF" [1; 3]).
  - apply sample_local.
  - apply sample_terminal_two.
  - apply handle_of_prioritizing.
  - reflexivity.
  - reflexivity.
Defined.

Lemma rewrite_preserves_arguments_witness :
  ∃ (source : loc) w' k' (extra : list loc),
    generate_qastle_source (sample_self ["parquet"] true) 5 sample_world
    = (Return source, w')
    ∧ terminal w' source k' ([1; 3] ++ extra)
    ∧ (∀ (l : loc) (n : node),
         objs sample_world !! l = Some n → objs w' !! l = Some n)
    ∧ Forall (λ l : loc, objs sample_world !! l = None) extra
    ∧ (((λ l : loc, objs w' !! l) <$> extra = [Some (Str "junk.parquet")])
       ∨ ((λ l : loc, objs w' !! l) <$> extra
          = [Some (Str "treeme"); Some (Str "junk.root")])).
Proof.
  apply (rewrite_preserves_arguments (sample_self ["parquet"] true)
           sample_world 5 "ResultPandasDF" 1 3).
  - apply sample_local.
  - apply sample_terminal_two.
  - apply handle_of_prioritizing.
  - left. reflexivity.
Defined.

Lemma rewrite_selects_preferred_format_witness :
  (∃ (source s : loc) w',
      generate_qastle_source (sample_self ["root"; "parquet"] true) 5
        sample_world = (Return source, w')
      ∧ terminal w' source "ResultParquet" [1; 3; s])
  ∧ (∃ (source s : loc) w',
        generate_qastle_source (sample_self ["parquet"] true) 5 sample_world
        = (Return source, w')
        ∧ terminal w' source "ResultParquet" [1; 3; s])
  ∧ (∃ (source s1 s2 : loc) w',
        generate_qastle_source (sample_self ["root"] true) 5 sample_world
        = (Return source, w')
        ∧ terminal w' source "ResultTTree" [1; 3; s1; s2]).
Proof.
  split; [|split].
  - apply (rewrite_selects_preferred_format
             (sample_self ["root"; "parquet"] true) sample_world 5
             "ResultPandasDF" 1 3 sample_local sample_terminal_two
             (handle_of_prioritizing _ _ _)); reflexivity.
  - apply (rewrite_selects_preferred_format
             (sample_self ["parquet"] true) sample_world 5
             "ResultPandasDF" 1 3 sample_local sample_terminal_two
             (handle_of_prioritizing _ _ _)); reflexivity.
  - apply (rewrite_selects_preferred_format
             (sample_self ["root"] true) sample_world 5
             "ResultPandasDF" 1 3 sample_local sample_terminal_two
             (handle_of_prioritizing _ _ _)); reflexivity.
Defined.

(** C6 fails on the code: a one-argument ['ResultPandasDF'] query on a
    backend that supports no format ends in the [AssertionError] of
    line 111, which comes before the count of the arguments. *)
Lemma one_argument_unsupported_is_assertion :
  local_materialized "ResultPandasDF"
  ∧ terminal sample_world 6 "ResultPandasDF" [1]
  ∧ generate_qastle sample_text (sample_self [] true) 6 sample_world
    = (Raise (AssertionError "Unsupported ServiceX returned format"),
       sample_world)
  ∧ ∀ msg,
      (generate_qastle sample_text (sample_self [] true) 6 sample_world).1
      ≠ Raise (FuncADLServerException msg).
Proof.
  split; [apply sample_local|]. split; [apply sample_terminal_one|].
  by repeat split.
Qed.

Lemma rewrite_wrong_arity_witness :
  generate_qastle sample_text (sample_self ["root"] true) 6 sample_world
  = (Raise (FuncADLServerException
              "Do not understand how to call ResultPandasDF - wrong number of arguments"),
     sample_world).
Proof.
  apply (rewrite_wrong_arity sample_text (sample_self ["root"] true)
           sample_world 6 "ResultPandasDF" [1]).
  - apply sample_local.
  - apply sample_terminal_one.
  - cbn. lia.
  - apply handle_of_prioritizing.
  - right. reflexivity.
Defined.

Lemma dry_run_returns_wire_text_witness :
  sent (execute_result_async sample_text (sample_self ["parquet"] true) 5
          None sample_world).2 = sent sample_world
  ∧ ∃ (source : loc) w',
      generate_qastle_source (sample_self ["parquet"] true) 5 sample_world
      = (Return source, w')
      ∧ source ≠ 5
      ∧ execute_result_async sample_text (sample_self ["parquet"] true) 5
          None sample_world
        = (Return (Qastle (sample_text (objs w') source)), w').
Proof.
  destruct (dry_run_returns_wire_text sample_text
              (sample_self ["parquet"] true) 5 None sample_world eq_refl)
    as (Hsent & _ & _ & Hlocal).
  split; [exact Hsent|].
  apply (Hlocal "ResultPandasDF" 1 3).
  - apply sample_terminal_two.
  - apply sample_local.
  - apply handle_of_prioritizing.
  - left. reflexivity.
Defined.

Lemma execute_dispatches_on_original_kind_witness :
  sent (execute_result_async sample_text (sample_self ["parquet"] false) 5
          (Some "my query") sample_world).2
  = [Request "get_data_pandas_df_async"
       "(ResultParquet (EventDataset) (list 'pt') 'junk.parquet')"
       (Some "my query")].
Proof.
  eapply (execute_dispatches_on_original_kind sample_text
            (sample_self ["parquet"] false) 5 (Some "my query")
            sample_world "ResultPandasDF" [1; 3]).
  - reflexivity.
  - apply sample_terminal_two.
  - reflexivity.
  - reflexivity.
  - reflexivity.
Defined.

Lemma rewrite_builds_new_root_witness :
  terminal
    (World (sample_objs ++ [Name "ResultParquet"; Str "junk.parquet";
                            Call 13 [1; 3; 14]]) [])
    5 "ResultPandasDF" [1; 3]
  ∧ sample_objs !! 15 = None.
Proof.
  destruct (rewrite_builds_new_root (sample_self ["parquet"] true)
              sample_world 5 "ResultPandasDF" [1; 3] 15
              (World (sample_objs ++ [Name "ResultParquet";
                                      Str "junk.parquet";
                                      Call 13 [1; 3; 14]]) [])
              sample_local sample_terminal_two eq_refl)
    as (_ & _ & Hold & Hnew & _).
  split; [exact Hold | exact Hnew].
Defined.

Lemma unknown_kind_passes_witness :
  execute_result_async sample_text (sample_self [] true) 12 None sample_world
  = (Return (Qastle "(ResultMystery (EventDataset) (list 'pt'))"),
     sample_world)
  ∧ execute_result_async sample_text (sample_self [] false) 12 None
      sample_world
    = (Raise (FuncADLServerException
                "Internal error - asked for ResultMystery - but this dataset does not support it."),
       sample_world).
Proof.
  split.
  - apply (unknown_kind_passes sample_text (sample_self [] true) 12 None
             sample_world "ResultMystery" [1; 3]
             sample_unknown sample_terminal_unknown).
    reflexivity.
  - apply (unknown_kind_passes sample_text (sample_self [] false) 12 None
             sample_world "ResultMystery" [1; 3]
             sample_unknown sample_terminal_unknown).
    reflexivity.
Defined.

(** * Further properties of the entry point *)

Section EntryPoint.

Context {Data : Type}.
Variable python_ast_to_text_ast : list node -> loc -> string.
Implicit Types (self : ServiceXDatasetSourceBase Data) (w : world).
Implicit Types (a : loc) (k : string) (args : list loc).

Lemma format_map_values (fmt m : string) :
  _format_map !! fmt = Some m →
  (fmt = "root" ∧ m = "get_data_rootfiles_async")
  ∨ (fmt = "parquet" ∧ m = "get_data_parquet_async").
Proof.
  unfold _format_map. cbn [list_to_map foldr fst snd uncurry].
  rewrite !lookup_insert_Some, lookup_empty.
  intros [[<- <-] | [_ [[<- <-] | [_ ?]]]]; [by left | by right | done].
Qed.

(** The flag plays no part in the check and in the rewrite. *)
Lemma execute_result_async_flag self a t w k args (flag : bool) :
  terminal w a k args →
  execute_result_async python_ast_to_text_ast (set_return_qastle self flag)
    a t w =
  match check_data_format_request self k w with
  | (Raise e, w1) => (Raise e, w1)
  | (Return _, w1) =>
    match generate_qastle python_ast_to_text_ast self a w1 with
    | (Raise e, w2) => (Raise e, w2)
    | (Return q, w2) =>
      if flag then (Return (Qastle q), w2)
      else
        match _ds_map !! k with
        | None =>
          (Raise (FuncADLServerException
                    ("Internal error - asked for " +:+ k
                     +:+ " - but this dataset does not support it.")), w2)
        | Some name => invoke (_ds self) name q t w2
        end
    end
  end.
Proof.
  intros Ht.
  exact (execute_result_async_eq python_ast_to_text_ast
           (set_return_qastle self flag) a t w k args Ht).
Qed.

Lemma terminal_dec w a :
  (∃ k args, terminal w a k args) ∨ ¬ (∃ k args, terminal w a k args).
Proof.
  destruct (objs w !! a) as [na|] eqn:Ha;
    [destruct na as [| | | | | |f args];
     [| | | | | |destruct (objs w !! f) as [nf|] eqn:Hf;
       [destruct nf as [k| | | | | |]|]]|];
    try (right; intros (k' & args' & f' & Ha' & Hf'); congruence).
  left. by exists k, args, f.
Qed.

(** A node that is not a call of a name fails the same way whatever the
    object's fields are. *)
Lemma execute_result_async_malformed self self' a t w :
  (¬ ∃ k args, terminal w a k args) →
  execute_result_async python_ast_to_text_ast self a t w
  = execute_result_async python_ast_to_text_ast self' a t w.
Proof.
  intros Hn.
  destruct (objs w !! a) as [na|] eqn:Ha;
    [destruct na as [| | | | | |f args];
     [| | | | | |destruct (objs w !! f) as [nf|] eqn:Hf;
       [destruct nf as [k| | | | | |]|]]|];
    try (unfold execute_result_async, bind, get_func, get_id;
         rewrite ?Ha, ?Hf; done).
  destruct Hn. by exists k, args, f.
Qed.

(** X1: a remote-native kind whose format the backend does not support
    stops the request at the check, in a dry run as in a real one:
    nothing is serialized, built or sent. *)
Theorem unsupported_remote_native_stops self a t w k args fmt :
  terminal w a k args → required_format k = Some fmt →
  supports (_ds self) fmt = false →
  execute_result_async python_ast_to_text_ast self a t w
  = (Raise (FuncADLServerException
              (k +:+ " is not supported by " +:+ ds_str (_ds self))), w).
Proof.
  intros Ht Hf Hs.
  rewrite (execute_result_async_eq _ _ _ _ _ _ _ Ht).
  by rewrite check_data_format_request_eq, Hf, Hs.
Qed.

(** X2: the text a dry run returns is the text a real run of the same
    request sends.  With the flag cleared the same objects are built and
    the one call made carries that text and the caller's title, under
    the method [_ds_map] gives for the original kind; a kind that is no
    key of [_ds_map] gets the internal error instead. *)
Theorem dry_run_previews_real_run self a t w q w' :
  execute_result_async python_ast_to_text_ast (set_return_qastle self true)
    a t w = (Return (Qastle q), w') →
  ∃ k args,
    terminal w a k args ∧ sent w' = sent w
    ∧ match _ds_map !! k with
      | Some name =>
        execute_result_async python_ast_to_text_ast
          (set_return_qastle self false) a t w
        = (match method (_ds self) name q t with
           | Return d => Return (Materialized d)
           | Raise e => Raise e
           end,
           World (objs w') (sent w ++ [Request name q t]))
      | None =>
        execute_result_async python_ast_to_text_ast
          (set_return_qastle self false) a t w
        = (Raise (FuncADLServerException
                    ("Internal error - asked for " +:+ k
                     +:+ " - but this dataset does not support it.")), w')
      end.
Proof.
  intros Hdry.
  destruct (execute_result_async_cases python_ast_to_text_ast
              (set_return_qastle self true) a t w)
    as [(k & args & Ht) | (e & He)]; [|by rewrite He in Hdry].
  exists k, args. split; [done|].
  rewrite (execute_result_async_flag self a t w k args true Ht) in Hdry.
  rewrite (execute_result_async_flag self a t w k args false Ht).
  rewrite check_data_format_request_eq in Hdry |- *.
  pose proof (generate_qastle_sent python_ast_to_text_ast self a w) as Hs.
  destruct (required_format k) as [fmt|];
    [destruct (supports (_ds self) fmt); [|done]|];
    destruct (generate_qastle _ self a w) as [[q'|e] w2]; simplify_eq;
    cbn [snd] in Hs; (split; [done|]);
    destruct (_ds_map !! k) as [name|]; try done;
    unfold invoke; rewrite Hs; by destruct (method _ _ _ _).
Qed.

(** X3: a request that fails in a dry run fails in a real run with the
    same exception, before anything is sent. *)
Theorem dry_run_failure_is_real_failure self a t w e w' :
  execute_result_async python_ast_to_text_ast (set_return_qastle self true)
    a t w = (Raise e, w') →
  execute_result_async python_ast_to_text_ast (set_return_qastle self false)
    a t w = (Raise e, w')
  ∧ sent w' = sent w.
Proof.
  intros Hdry.
  destruct (terminal_dec w a) as [(k & args & Ht) | Hn].
  - rewrite (execute_result_async_flag self a t w k args true Ht) in Hdry.
    rewrite (execute_result_async_flag self a t w k args false Ht).
    rewrite check_data_format_request_eq in Hdry |- *.
    pose proof (generate_qastle_sent python_ast_to_text_ast self a w) as Hs.
    destruct (required_format k) as [fmt|];
      [destruct (supports (_ds self) fmt)|];
      try (by simplify_eq);
      destruct (generate_qastle _ self a w) as [[q'|e''] w2]; by simplify_eq.
  - rewrite (execute_result_async_malformed _ (set_return_qastle self true)
               a t w Hn).
    split; [done|].
    destruct (execute_result_async_cases python_ast_to_text_ast
                (set_return_qastle self true) a t w)
      as [Ht | (e' & He)]; [done|].
    rewrite He in Hdry. by simplify_eq.
Qed.

(** X4: a request makes at most one call to the backend.  When it makes
    one, the flag is clear, the method is the one [_ds_map] gives for the
    kind of the original node, and the title is the caller's. *)
Theorem execute_sends_at_most_once self a t w :
  sent (execute_result_async python_ast_to_text_ast self a t w).2 = sent w
  ∨ ∃ k args name q,
      terminal w a k args ∧ _return_qastle self = false
      ∧ _ds_map !! k = Some name
      ∧ sent (execute_result_async python_ast_to_text_ast self a t w).2
        = sent w ++ [Request name q t].
Proof.
  destruct (execute_result_async_cases python_ast_to_text_ast self a t w)
    as [(k & args & Ht) | (e & ->)]; [|by left].
  rewrite (execute_result_async_eq _ _ _ _ _ _ _ Ht).
  rewrite check_data_format_request_eq.
  pose proof (generate_qastle_sent python_ast_to_text_ast self a w) as Hs.
  destruct (required_format k) as [fmt|];
    [destruct (supports (_ds self) fmt); [|by left]|];
    destruct (generate_qastle _ self a w) as [[q|e] w2]; cbn [snd] in Hs;
    try (by left);
    destruct (_return_qastle self) eqn:Hflag; try (by left);
    destruct (_ds_map !! k) as [name|] eqn:Hname; try (by left);
    right; exists k, args, name, q; repeat split; try done;
    unfold invoke; rewrite Hs; by destruct (method _ _ _ _).
Qed.

End EntryPoint.

(** * Further properties of the rewrite *)

Section Rewrite.

Context {Data : Type}.
Variable python_ast_to_text_ast : list node -> loc -> string.
Implicit Types (self : ServiceXDatasetSourceBase Data) (w : world).
Implicit Types (a : loc) (k : string) (args : list loc).

Lemma generate_qastle_source_cases self a w :
  (∃ k args, terminal w a k args)
  ∨ (∃ attr, generate_qastle_source self a w
             = (Raise (AttributeError attr), w)).
Proof.
  destruct (objs w !! a) as [na|] eqn:Ha;
    [destruct na as [| | | | | |f args];
     [| | | | | |destruct (objs w !! f) as [nf|] eqn:Hf;
       [destruct nf as [k| | | | | |]|]]|];
    try (right; unfold generate_qastle_source, bind, get_func, get_id;
         rewrite ?Ha, ?Hf; by eexists).
  left. by exists k, args, f.
Qed.

Lemma format_map_unknown (fmt : string) :
  fmt ≠ "root" → fmt ≠ "parquet" → _format_map !! fmt = None.
Proof.
  intros Hr Hp. destruct (_format_map !! fmt) as [m|] eqn:E; [|done].
  by destruct (format_map_values _ _ E) as [[? _] | [? _]].
Qed.

Lemma remote_native_not_local k : remote_native k → k ∉ _execute_locally.
Proof.
  intros [-> | ->]%remote_native_cases [? | ?]%local_materialized_cases;
    discriminate.
Qed.

(** How many objects a run of the rewrite adds: none, or the three of a
    ['ResultParquet'] call, or the four of a ['ResultTTree'] call. *)
Lemma generate_qastle_source_grows self a w :
  ∃ new : list node,
    objs (generate_qastle_source self a w).2 = objs w ++ new
    ∧ (length new = 0 ∨ length new = 3 ∨ length new = 4).
Proof.
  destruct (generate_qastle_source_cases self a w)
    as [(k & args & Ht) | (attr & ->)];
    [|exists []; by rewrite app_nil_r; auto].
  destruct (decide (k ∈ _execute_locally)) as [Hk|Hk].
  - rewrite (generate_qastle_source_local _ _ _ _ _ Ht Hk).
    repeat case_match; cbn [snd objs];
      first [ by eexists; split; [reflexivity | cbn; auto]
            | exists []; by rewrite app_nil_r; auto ].
  - rewrite (generate_qastle_source_pass _ _ _ _ _ Ht Hk).
    exists []; by rewrite app_nil_r; auto.
Qed.

(** X5: no request changes an object that exists.  Whatever the node,
    the backend and the flag, the store after [execute_result_async] is
    the store before it followed by the objects of the rewrite: none,
    three or four. *)
Theorem execute_never_mutates self a t w :
  ∃ new : list node,
    objs (execute_result_async python_ast_to_text_ast self a t w).2
    = objs w ++ new
    ∧ (length new = 0 ∨ length new = 3 ∨ length new = 4)
    ∧ ∀ (l : loc) (n : node),
        objs w !! l = Some n →
        objs (execute_result_async python_ast_to_text_ast self a t w).2 !! l
        = Some n.
Proof.
  assert (∃ new : list node,
    objs (execute_result_async python_ast_to_text_ast self a t w).2
    = objs w ++ new
    ∧ (length new = 0 ∨ length new = 3 ∨ length new = 4))
    as (new & Hnew & Hlen).
  { destruct (execute_result_async_cases python_ast_to_text_ast self a t w)
      as [(k & args & Ht) | (e & ->)];
      [|exists []; by rewrite app_nil_r; auto].
    rewrite (execute_result_async_eq _ _ _ _ _ _ _ Ht).
    rewrite check_data_format_request_eq, generate_qastle_eq.
    destruct (generate_qastle_source_grows self a w) as (new & Hnew & Hlen).
    destruct (required_format k) as [fmt|];
      [destruct (supports (_ds self) fmt);
       [|exists []; by rewrite app_nil_r; auto]|];
      destruct (generate_qastle_source self a w) as [[source|e] w2];
      cbn [snd] in Hnew; try (by exists new);
      destruct (_return_qastle self); try (by exists new);
      destruct (_ds_map !! k) as [name|]; try (by exists new);
      unfold invoke; destruct (method _ _ _ _); by exists new. }
  exists new. split; [done|]. split; [done|].
  intros l n Hl. rewrite Hnew. by apply alloc_old.
Qed.

(** X6: the rewrite never fails on an index out of range and never
    reaches the final [assert False] of line 127: the count of the
    arguments guards [a.args[0]] and [a.args[1]], and [_format_map] only
    holds the two method names the branches test for. *)
Theorem rewrite_dead_branches self a w :
  (generate_qastle_source self a w).1 ≠ Raise IndexError
  ∧ ∀ m, (generate_qastle_source self a w).1
         ≠ Raise (AssertionError ("Do not know how to call " +:+ m)).
Proof.
  destruct (generate_qastle_source_cases self a w)
    as [(k & args & Ht) | (attr & ->)]; [|by split].
  destruct (decide (k ∈ _execute_locally)) as [Hk|Hk];
    [|by rewrite (generate_qastle_source_pass _ _ _ _ _ Ht Hk)].
  rewrite (generate_qastle_source_local _ _ _ _ _ Ht Hk).
  destruct (first_supported_datatype _ _) as [fmt|]; [|by split].
  destruct (_format_map !! fmt) as [m0|] eqn:Hm; [|by split].
  destruct (format_map_values _ _ Hm) as [[_ ->] | [_ ->]];
    by destruct args as [|? [|? [|? ?]]].
Qed.

(** X7: for a local-materialized kind, a backend that answers the format
    query with a name other than ['root'] and ['parquet'] makes the
    rewrite fail on the lookup in [_format_map], with a [KeyError] of
    that name, before the arguments are counted and with nothing built. *)
Theorem rewrite_unknown_format_key_error self w a k args (fmt : string) :
  local_materialized k → terminal w a k args →
  first_supported_datatype (_ds self) (Many ["parquet"; "root"]) = Some fmt →
  fmt ≠ "root" → fmt ≠ "parquet" →
  generate_qastle python_ast_to_text_ast self a w = (Raise (KeyError fmt), w).
Proof.
  intros Hk Ht Hf Hr Hp.
  rewrite generate_qastle_eq, (generate_qastle_source_local _ _ _ _ _ Ht Hk).
  by rewrite Hf, (format_map_unknown _ Hr Hp).
Qed.

(** X8: what the rewrite builds is a query it accepts itself.  With a
    backend that answers the first supported candidate, the new terminal
    node has a remote-native kind whose format the backend supports, so
    it passes the check, and rewriting it again hands it back unchanged. *)
Theorem rewritten_query_is_accepted self w a k args (source : loc) w' :
  local_materialized k → terminal w a k args → prioritizing (_ds self) →
  generate_qastle_source self a w = (Return source, w') →
  ∃ k' args' fmt,
    terminal w' source k' args'
    ∧ required_format k' = Some fmt
    ∧ supports (_ds self) fmt = true
    ∧ check_data_format_request self k' w' = (Return tt, w')
    ∧ generate_qastle_source self source w' = (Return source, w').
Proof.
  intros Hk Ht Hp Hg.
  rewrite (generate_qastle_source_local _ _ _ _ _ Ht Hk) in Hg.
  destruct (first_supported_datatype _ _) as [fmt|] eqn:Hf; [|done].
  rewrite Hp in Hf. apply find_some in Hf as [_ Hs].
  destruct (_format_map !! fmt) as [m0|] eqn:Hm; [|done].
  destruct args as [|stream [|col_names [|? ?]]]; try done.
  cbn zeta in Hg.
  assert (∀ k' args' w2 (src : loc),
    terminal w2 src k' args' → required_format k' = Some fmt →
    terminal w2 src k' args' ∧ required_format k' = Some fmt
    ∧ supports (_ds self) fmt = true
    ∧ check_data_format_request self k' w2 = (Return tt, w2)
    ∧ generate_qastle_source self src w2 = (Return src, w2)) as Hall.
  { intros k' args' w2 src Ht' Hr. split; [done|]. split; [done|].
    split; [done|]. split.
    - by rewrite check_data_format_request_eq, Hr, Hs.
    - eapply generate_qastle_source_pass; [done|].
      apply remote_native_not_local. unfold remote_native. by rewrite Hr. }
  destruct (format_map_values _ _ Hm) as [[-> ->] | [-> ->]].
  - rewrite bool_decide_true in Hg by done. simplify_eq.
    eexists "ResultTTree", _, "root". apply Hall; [|done].
    exists (length (objs w)); cbn [objs].
    by rewrite alloc_new, alloc_new_0.
  - rewrite bool_decide_false, bool_decide_true in Hg by done. simplify_eq.
    eexists "ResultParquet", _, "parquet". apply Hall; [|done].
    exists (length (objs w)); cbn [objs].
    by rewrite alloc_new, alloc_new_0.
Qed.

End Rewrite.

(** * The constructors *)

Lemma args_append_Call (q : loc) (s : string) w (f : loc) (args : list loc) :
  objs w !! q = Some (Call f args) →
  args_append q s w
  = (Return tt,
     World (<[q := Call f (args ++ [length (objs w)])]> (objs w ++ [Str s]))
           (sent w)).
Proof.
  intros Hq. unfold args_append.
  erewrite bind_Return by (eapply get_args_Call; eassumption).
  unfold bind, alloc; cbn [objs sent].
  by rewrite (alloc_old _ _ _ _ Hq).
Qed.

Lemma insert_old (h : list node) (q l : loc) (n x : node) :
  l ≠ q → h !! l = Some n → <[q := x]> h !! l = Some n.
Proof. intros Hne Hl. by rewrite list_lookup_insert_ne. Qed.

Lemma insert_here (h : list node) (q : loc) (n x : node) :
  h !! q = Some n → <[q := x]> h !! q = Some x.
Proof.
  intros Hq. apply list_lookup_insert_eq. by eapply lookup_lt_Some.
Qed.

Section ConstructorProperties.

Context {Data DatasetType : Type}.
Variable ServiceXDataset_new : DatasetType -> string -> ServiceXDataset Data.
Variable EventDataset_init : M loc.
Implicit Types (sx : @sx_arg Data DatasetType) (w : world).

Lemma ServiceXDatasetSourceBase_init_eq sx (backend_name : string) w
    (q : loc) w1 :
  EventDataset_init w = (Return q, w1) →
  ServiceXDatasetSourceBase_init ServiceXDataset_new EventDataset_init
    sx backend_name w
  = (Return {| source_base :=
                 {| _ds := match sx with
                           | sx_name d => ServiceXDataset_new d backend_name
                           | sx_dataset ds => ds
                           end;
                    _return_qastle := false |};
               query_ast := q |}, w1).
Proof.
  intros Hinit. unfold ServiceXDatasetSourceBase_init.
  by erewrite bind_Return by eassumption.
Qed.

(** X9: [ServiceXSourceUpROOT] extends the argument list of its
    [query_ast] in place by two new string constants, ['bogus.root'] and
    then the tree name; the function and the earlier arguments of that
    node and every other object stay as [EventDataset.__init__] left
    them, nothing is sent, the object starts with the dry-run flag
    clear, and a ready dataset is kept whatever the backend name is. *)
Theorem uproot_init_appends_two sx (treename : string)
    (backend_name : option string) w (q : loc) w1 (f : loc)
    (args : list loc) :
  EventDataset_init w = (Return q, w1) →
  objs w1 !! q = Some (Call f args) →
  ∃ self w2 (s1 s2 : loc),
    ServiceXSourceUpROOT_init ServiceXDataset_new EventDataset_init
      sx treename backend_name w = (Return self, w2)
    ∧ query_ast self = q
    ∧ objs w2 !! q = Some (Call f (args ++ [s1; s2]))
    ∧ objs w2 !! s1 = Some (Str "bogus.root")
    ∧ objs w2 !! s2 = Some (Str treename)
    ∧ objs w1 !! s1 = None ∧ objs w1 !! s2 = None
    ∧ (∀ (l : loc) (n : node),
         l ≠ q → objs w1 !! l = Some n → objs w2 !! l = Some n)
    ∧ sent w2 = sent w1
    ∧ return_qastle (source_base self) = false
    ∧ _ds (source_base self)
      = match sx with
        | sx_name d =>
          ServiceXDataset_new d (or_default backend_name "uproot")
        | sx_dataset ds => ds
        end.
Proof.
  intros Hinit Hq.
  assert (<[q := Call f (args ++ [length (objs w1)])]>
            (objs w1 ++ [Str "bogus.root"]) !! q
          = Some (Call f (args ++ [length (objs w1)]))) as Hq1.
  { eapply insert_here, alloc_old, Hq. }
  unfold ServiceXSourceUpROOT_init.
  erewrite bind_Return
    by (apply ServiceXDatasetSourceBase_init_eq; eassumption).
  cbn [query_ast].
  erewrite bind_Return by (apply args_append_Call; eassumption).
  erewrite bind_Return by (apply args_append_Call; exact Hq1).
  unfold ret. cbn [objs sent].
  assert (q < length (objs w1)) as Hlt by (by eapply lookup_lt_Some).
  assert (length (<[q := Call f (args ++ [length (objs w1)])]>
                    (objs w1 ++ [Str "bogus.root"]))
          = length (objs w1) + 1) as Hlen.
  { by rewrite length_insert, length_app. }
  eexists _, _, (length (objs w1)), _.
  split; [reflexivity|]. cbn [objs sent source_base query_ast].
  repeat split.
  - rewrite <- app_assoc. cbn [app].
    eapply insert_here, alloc_old, Hq1.
  - apply insert_old; [lia|]. apply alloc_old.
    apply insert_old; [lia|]. apply alloc_new_0.
  - apply insert_old; [rewrite Hlen; lia|]. apply alloc_new_0.
  - apply lookup_ge_None_2. lia.
  - apply lookup_ge_None_2. rewrite Hlen. lia.
  - intros l n Hne Hl.
    by apply insert_old, alloc_old, insert_old, alloc_old.
Qed.

(** X10: [ServiceXSourceXAOD] and [ServiceXSourceCMSRun1AOD] extend the
    argument list of their [query_ast] in place by one new string
    constant, ['bogus.root'], and change nothing else; the two leave the
    same store and differ in the default backend name only, ['xaod']
    against ['cms_run1_aod']. *)
Theorem cpp_init_appends_one sx (backend : option string) w (q : loc) w1
    (f : loc) (args : list loc) :
  EventDataset_init w = (Return q, w1) →
  objs w1 !! q = Some (Call f args) →
  ∃ self self' w2 (s1 : loc),
    ServiceXSourceXAOD_init ServiceXDataset_new EventDataset_init
      sx backend w = (Return self, w2)
    ∧ ServiceXSourceCMSRun1AOD_init ServiceXDataset_new EventDataset_init
        sx backend w = (Return self', w2)
    ∧ query_ast self = q ∧ query_ast self' = q
    ∧ objs w2 !! q = Some (Call f (args ++ [s1]))
    ∧ objs w2 !! s1 = Some (Str "bogus.root")
    ∧ objs w1 !! s1 = None
    ∧ (∀ (l : loc) (n : node),
         l ≠ q → objs w1 !! l = Some n → objs w2 !! l = Some n)
    ∧ sent w2 = sent w1
    ∧ return_qastle (source_base self) = false
    ∧ return_qastle (source_base self') = false
    ∧ _ds (source_base self)
      = match sx with
        | sx_name d => ServiceXDataset_new d (or_default backend "xaod")
        | sx_dataset ds => ds
        end
    ∧ _ds (source_base self')
      = match sx with
        | sx_name d =>
          ServiceXDataset_new d (or_default backend "cms_run1_aod")
        | sx_dataset ds => ds
        end.
Proof.
  intros Hinit Hq.
  unfold ServiceXSourceXAOD_init, ServiceXSourceCMSRun1AOD_init,
    ServiceXSourceCPPBase_init.
  rewrite (bind_Return _ _ _ _ _
             (ServiceXDatasetSourceBase_init_eq
                sx (or_default backend "xaod") w q w1 Hinit)).
  rewrite (bind_Return _ _ _ _ _
             (ServiceXDatasetSourceBase_init_eq
                sx (or_default backend "cms_run1_aod") w q w1 Hinit)).
  cbn [query_ast].
  rewrite !(bind_Return _ _ _ _ _ (args_append_Call _ "bogus.root" _ _ _ Hq)).
  unfold ret.
  assert (q < length (objs w1)) as Hlt by (by eapply lookup_lt_Some).
  assert (q ≠ length (objs w1)) as Hne0 by lia.
  eexists _, _, _, (length (objs w1)).
  split; [reflexivity|]. split; [reflexivity|].
  cbn [objs sent source_base query_ast].
  repeat split.
  - eapply insert_here, alloc_old, Hq.
  - apply insert_old; [lia|]. apply alloc_new_0.
  - apply lookup_ge_None_2. lia.
  - intros l n Hne Hl. by apply insert_old, alloc_old.
Qed.

End ConstructorProperties.

(** * The further properties on the samples *)

Lemma sample_terminal_ttree :
  terminal sample_world 10 "ResultTTree" [1; 3; 8; 9].
Proof. exists 7. by split. Qed.

Lemma unsupported_remote_native_stops_witness :
  execute_result_async sample_text (sample_self ["parquet"] false) 10 None
    sample_world
  = (Raise (FuncADLServerException
              "ResultTTree is not supported by sample backend"),
     sample_world).
Proof.
  apply (unsupported_remote_native_stops sample_text
           (sample_self ["parquet"] false) 10 None sample_world
           "ResultTTree" [1; 3; 8; 9] "root").
  - apply sample_terminal_ttree.
  - reflexivity.
  - reflexivity.
Defined.

Lemma dry_run_previews_real_run_witness :
  ∃ k args,
    terminal sample_world 5 k args
    ∧ sent (World (sample_objs ++ [Name "ResultParquet"; Str "junk.parquet";
                                   Call 13 [1; 3; 14]]) [])
      = sent sample_world
    ∧ match _ds_map !! k with
      | Some name =>
        execute_result_async sample_text
          (set_return_qastle (sample_self ["parquet"] true) false) 5
          (Some "my query") sample_world
        = (match method (_ds (sample_self ["parquet"] true)) name
                   "(ResultParquet (EventDataset) (list 'pt') 'junk.parquet')"
                   (Some "my query") with
           | Return d => Return (Materialized d)
           | Raise e => Raise e
           end,
           World (objs (World (sample_objs
                               ++ [Name "ResultParquet"; Str "junk.parquet";
                                   Call 13 [1; 3; 14]]) []))
                 (sent sample_world
                  ++ [Request name
                        "(ResultParquet (EventDataset) (list 'pt') 'junk.parquet')"
                        (Some "my query")]))
      | None =>
        execute_result_async sample_text
          (set_return_qastle (sample_self ["parquet"] true) false) 5
          (Some "my query") sample_world
        = (Raise (FuncADLServerException
                    ("Internal error - asked for " +:+ k
                     +:+ " - but this dataset does not support it.")),
           World (sample_objs ++ [Name "ResultParquet"; Str "junk.parquet";
                                  Call 13 [1; 3; 14]]) [])
      end.
Proof.
  apply (dry_run_previews_real_run sample_text
           (sample_self ["parquet"] true) 5 (Some "my query") sample_world
           "(ResultParquet (EventDataset) (list 'pt') 'junk.parquet')"
           (World (sample_objs ++ [Name "ResultParquet"; Str "junk.parquet";
                                   Call 13 [1; 3; 14]]) [])).
  reflexivity.
Defined.

Lemma dry_run_failure_is_real_failure_witness :
  execute_result_async sample_text
    (set_return_qastle (sample_self ["root"] true) false) 6 None sample_world
  = (Raise (FuncADLServerException
              "Do not understand how to call ResultPandasDF - wrong number of arguments"),
     sample_world)
  ∧ sent sample_world = sent sample_world.
Proof.
  apply (dry_run_failure_is_real_failure sample_text
           (sample_self ["root"] true) 6 None sample_world).
  reflexivity.
Defined.

Lemma rewrite_unknown_format_key_error_witness :
  generate_qastle sample_text {| _ds := csv_ds; _return_qastle := true |} 5
    sample_world
  = (Raise (KeyError "csv"), sample_world).
Proof.
  apply (rewrite_unknown_format_key_error sample_text
           {| _ds := csv_ds; _return_qastle := true |} sample_world 5
           "ResultPandasDF" [1; 3] "csv").
  - apply sample_local.
  - apply sample_terminal_two.
  - reflexivity.
  - discriminate.
  - discriminate.
Defined.

Lemma rewritten_query_is_accepted_witness :
  ∃ k' args' fmt,
    terminal (World (sample_objs ++ [Name "ResultTTree"; Str "treeme";
                                     Str "junk.root"; Call 13 [1; 3; 14; 15]])
                    []) 16 k' args'
    ∧ required_format k' = Some fmt
    ∧ supports (_ds (sample_self ["root"] true)) fmt = true
    ∧ check_data_format_request (sample_self ["root"] true) k'
        (World (sample_objs ++ [Name "ResultTTree"; Str "treeme";
                                Str "junk.root"; Call 13 [1; 3; 14; 15]]) [])
      = (Return tt,
         World (sample_objs ++ [Name "ResultTTree"; Str "treeme";
                                Str "junk.root"; Call 13 [1; 3; 14; 15]]) [])
    ∧ generate_qastle_source (sample_self ["root"] true) 16
        (World (sample_objs ++ [Name "ResultTTree"; Str "treeme";
                                Str "junk.root"; Call 13 [1; 3; 14; 15]]) [])
      = (Return 16,
         World (sample_objs ++ [Name "ResultTTree"; Str "treeme";
                                Str "junk.root"; Call 13 [1; 3; 14; 15]]) []).
Proof.
  apply (rewritten_query_is_accepted (sample_self ["root"] true)
           sample_world 5 "ResultPandasDF" [1; 3]).
  - apply sample_local.
  - apply sample_terminal_two.
  - apply handle_of_prioritizing.
  - reflexivity.
Defined.

Lemma uproot_init_appends_two_witness :
  ∃ self w2 (s1 s2 : loc),
    ServiceXSourceUpROOT_init sample_ServiceXDataset_new
      sample_EventDataset_init (sx_name ["ds1"]) "mytree" None empty_world
    = (Return self, w2)
    ∧ query_ast self = 2
    ∧ objs w2 !! 2 = Some (Call 0 ([1] ++ [s1; s2]))
    ∧ objs w2 !! s1 = Some (Str "bogus.root")
    ∧ objs w2 !! s2 = Some (Str "mytree")
    ∧ [Name "EventDataset"; Str "x"; Call 0 [1]] !! s1 = None
    ∧ [Name "EventDataset"; Str "x"; Call 0 [1]] !! s2 = None
    ∧ (∀ (l : loc) (n : node),
         l ≠ 2 →
         [Name "EventDataset"; Str "x"; Call 0 [1]] !! l = Some n →
         objs w2 !! l = Some n)
    ∧ sent w2 = []
    ∧ return_qastle (source_base self) = false
    ∧ _ds (source_base self)
      = sample_ServiceXDataset_new ["ds1"] (or_default None "uproot").
Proof.
  apply (uproot_init_appends_two sample_ServiceXDataset_new
           sample_EventDataset_init (sx_name ["ds1"]) "mytree" None
           empty_world 2
           (World [Name "EventDataset"; Str "x"; Call 0 [1]] []) 0 [1]).
  - reflexivity.
  - reflexivity.
Defined.

Lemma cpp_init_appends_one_witness :
  ∃ self self' w2 (s1 : loc),
    ServiceXSourceXAOD_init sample_ServiceXDataset_new
      sample_EventDataset_init (sx_dataset (sample_ds ["root"])) None
      empty_world = (Return self, w2)
    ∧ ServiceXSourceCMSRun1AOD_init sample_ServiceXDataset_new
        sample_EventDataset_init (sx_dataset (sample_ds ["root"])) None
        empty_world = (Return self', w2)
    ∧ query_ast self = 2 ∧ query_ast self' = 2
    ∧ objs w2 !! 2 = Some (Call 0 ([1] ++ [s1]))
    ∧ objs w2 !! s1 = Some (Str "bogus.root")
    ∧ [Name "EventDataset"; Str "x"; Call 0 [1]] !! s1 = None
    ∧ (∀ (l : loc) (n : node),
         l ≠ 2 →
         [Name "EventDataset"; Str "x"; Call 0 [1]] !! l = Some n →
         objs w2 !! l = Some n)
    ∧ sent w2 = []
    ∧ return_qastle (source_base self) = false
    ∧ return_qastle (source_base self') = false
    ∧ _ds (source_base self) = sample_ds ["root"]
    ∧ _ds (source_base self') = sample_ds ["root"].
Proof.
  apply (cpp_init_appends_one sample_ServiceXDataset_new
           sample_EventDataset_init (sx_dataset (sample_ds ["root"])) None
           empty_world 2
           (World [Name "EventDataset"; Str "x"; Call 0 [1]] []) 0 [1]).
  - reflexivity.
  - reflexivity.
Defined.

(** * A real run of a remote-native kind *)

Section RemoteNative.

Context {Data : Type}.
Variable python_ast_to_text_ast : list node -> loc -> string.
Implicit Types (self : ServiceXDatasetSourceBase Data) (w : world).
Implicit Types (a : loc) (k : string) (args : list loc).

(** X11: a real run of a remote-native kind whose format the backend
    supports builds nothing and makes exactly one call, with the text of
    the original node, however many arguments that node has: the count
    of arguments is tested for local-materialized kinds only.  The
    method called is the one [_ds_map] gives for the kind, which is also
    the one [_format_map] gives for the kind's format. *)
Theorem real_run_remote_native self a t w k args (fmt : string) :
  terminal w a k args → required_format k = Some fmt →
  supports (_ds self) fmt = true → _return_qastle self = false →
  ∃ name,
    _ds_map !! k = Some name ∧ _format_map !! fmt = Some name
    ∧ execute_result_async python_ast_to_text_ast self a t w
      = (match method (_ds self) name
                 (python_ast_to_text_ast (objs w) a) t with
         | Return d => Return (Materialized d)
         | Raise e => Raise e
         end,
         World (objs w)
               (sent w ++ [Request name (python_ast_to_text_ast (objs w) a) t])).
Proof.
  intros Ht Hf Hs Hflag.
  assert (remote_native k) as Hk by (unfold remote_native; by rewrite Hf).
  rewrite (execute_result_async_eq _ _ _ _ _ _ _ Ht).
  rewrite check_data_format_request_eq, Hf, Hs, generate_qastle_eq.
  rewrite (generate_qastle_source_pass _ _ _ _ _ Ht
             (remote_native_not_local _ Hk)), Hflag.
  apply remote_native_cases in Hk as [-> | ->]; cbv in Hf; simplify_eq.
  - exists "get_data_rootfiles_async". split; [done|]. split; [done|].
    change (_ds_map !! "ResultTTree") with (Some "get_data_rootfiles_async").
    unfold invoke. by destruct (method _ _ _ _).
  - exists "get_data_parquet_async". split; [done|]. split; [done|].
    change (_ds_map !! "ResultParquet") with (Some "get_data_parquet_async").
    unfold invoke. by destruct (method _ _ _ _).
Qed.

End RemoteNative.

Lemma real_run_remote_native_witness :
  ∃ name,
    _ds_map !! "ResultTTree" = Some name ∧ _format_map !! "root" = Some name
    ∧ execute_result_async sample_text (sample_self ["root"] false) 10
        (Some "four arguments") sample_world
      = (match method (_ds (sample_self ["root"] false)) name
                 (sample_text (objs sample_world) 10)
                 (Some "four arguments") with
         | Return d => Return (Materialized d)
         | Raise e => Raise e
         end,
         World (objs sample_world)
               (sent sample_world
                ++ [Request name (sample_text (objs sample_world) 10)
                      (Some "four arguments")])).
Proof.
  apply (real_run_remote_native sample_text (sample_self ["root"] false) 10
           (Some "four arguments") sample_world "ResultTTree" [1; 3; 8; 9]
           "root").
  - apply sample_terminal_ttree.
  - reflexivity.
  - reflexivity.
  - reflexivity.
Defined.
